(** * pmr.wfctrl.core: workspaces, dispatch tables and the generic DVCS protocol

    A shallow embedding of [src/pmr/wfctrl/core.py].  Python [str] values are
    [string]s, the [set] of tracked files is a [gset string], dictionaries
    (dispatch tables, keyword arguments) are [gmap string _].  Methods that
    mutate [self] take the object and return it next to their outcome, so
    that the state left behind by a raised exception stays observable. *)

From Stdlib Require Import Ascii String List.
From stdpp Require Import base option list sorting gmap strings.

#[local] Set Warnings "-clear-no-such-hyp".

(** ** Python strings *)

Module pystr.

(** [s.startswith(p)] *)
Definition startswith (s p : string) : bool := String.prefix p s.

(** [s[n:]] *)
Fixpoint slice_from (n : nat) (s : string) : string :=
  match n, s with
  | O, _ => s
  | S _, EmptyString => EmptyString
  | S n', String _ s' => slice_from n' s'
  end.

(** [s.endswith(c)] for a one-character [c] *)
Fixpoint endswith_char (s : string) (c : ascii) : bool :=
  match s with
  | EmptyString => false
  | String a EmptyString => Ascii.eqb a c
  | String _ s' => endswith_char s' c
  end.

(** [s.split(c)] for a one-character separator [c] *)
Fixpoint split (c : ascii) (s : string) : list string :=
  match s with
  | EmptyString => [EmptyString]
  | String a s' =>
      if Ascii.eqb a c then EmptyString :: split c s'
      else match split c s' with
           | h :: t => String a h :: t
           | [] => [String a EmptyString]
           end
  end.

(** [sep.join(comps)] *)
Definition join_with (sep : string) (comps : list string) : string :=
  String.concat sep comps.

(** ['%s required but no init defined' % name] *)
Definition fmt_required (name : string) : string :=
  name +:+ " required but no init defined".

End pystr.

(** ** [os.path] (the POSIX flavour) *)

Module posixpath.

Definition sep : string := "/".
Definition sep_char : ascii := "/"%char.

Definition isabs (s : string) : bool := pystr.startswith s sep.

(** [join(a, b)] with a single tail component. *)
Definition join (a b : string) : string :=
  if pystr.startswith b sep then b
  else if (String.eqb a "" || pystr.endswith_char a sep_char)%bool then a +:+ b
  else a +:+ sep +:+ b.

(** One or two leading slashes are kept, three or more collapse to one. *)
Definition initial_slashes (path : string) : nat :=
  if pystr.startswith path sep then
    if (pystr.startswith path "//" && negb (pystr.startswith path "///"))%bool
    then 2 else 1
  else 0.

(** The body of the loop over the components, [new_comps] being the list
    built so far ([append] at its end, [pop] from its end). *)
Definition normpath_step (slashes : nat) (new_comps : list string)
    (comp : string) : list string :=
  if (String.eqb comp "" || String.eqb comp ".")%bool then new_comps
  else if (negb (String.eqb comp "..")
           || (Nat.eqb slashes 0 && bool_decide (new_comps = []))
           || (negb (bool_decide (new_comps = []))
               && bool_decide (last new_comps = Some "..")))%bool
       then new_comps ++ [comp]
       else if negb (bool_decide (new_comps = [])) then removelast new_comps
            else new_comps.

Definition normpath (path : string) : string :=
  if String.eqb path "" then "."
  else
    let slashes := initial_slashes path in
    let comps := fold_left (normpath_step slashes)
                   (pystr.split sep_char path) [] in
    let joined := pystr.join_with sep comps in
    let path' := match slashes with
                 | 0 => joined
                 | 1 => sep +:+ joined
                 | _ => sep +:+ sep +:+ joined
                 end in
    if String.eqb path' "" then "." else path'.

(** [abspath], reading the current directory [cwd] of the process. *)
Definition abspath (cwd path : string) : string :=
  normpath (if isabs path then path else join cwd path).

End posixpath.

(** ** Exceptions and outcomes *)

Inductive exn : Type :=
  | ValueError (msg : string)
  | AssertionError
  | TypeError (msg : string)
  | NotImplementedError
  | OtherError (msg : string).

Inductive outcome (A : Type) : Type :=
  | Returns (a : A)
  | Raises (e : exn).
Arguments Returns {A} a.
Arguments Raises {A} e.

Definition is_returns {A} (o : outcome A) : bool :=
  match o with Returns _ => true | Raises _ => false end.

(** ** Workspaces *)

Section Objects.
(** Callables that a caller may put into a dispatch table. *)
Context {callable : Type}.

Inductive pyobj : Type :=
  | PyNone
  | PyBool (b : bool)
  | PyInt (z : Z)
  | PyStr (s : string)
  | PyDummyAction             (* the module-level function [dummy_action] *)
  | PyCallable (c : callable).

(** The attributes of a workspace object.  [marker] starts as the class
    attribute [None]; [cmd_table] exists on [CmdWorkspace] only and is the
    empty dictionary on the other classes. *)
Record workspace : Type := mkWorkspace {
  working_dir : string;
  files : gset string;
  marker : option string;
  cmd_table : gmap string pyobj
}.

Definition set_files (self : workspace) (fs : gset string) : workspace :=
  {| working_dir := working_dir self; files := fs;
     marker := marker self; cmd_table := cmd_table self |}.

(** [self.cmd_table = ...] and [self.marker = ...] *)
Definition set_cmd_table (self : workspace) (t : gmap string pyobj) : workspace :=
  {| working_dir := working_dir self; files := files self;
     marker := marker self; cmd_table := t |}.
Definition set_marker (self : workspace) (m : option string) : workspace :=
  {| working_dir := working_dir self; files := files self;
     marker := m; cmd_table := cmd_table self |}.

(** [BaseWorkspace.reset] *)
Definition reset (self : workspace) : workspace := set_files self ∅.

(** [BaseWorkspace.__init__] *)
Definition BaseWorkspace__init__ (cwd working_dir : string) : workspace :=
  reset {| working_dir := posixpath.abspath cwd (posixpath.normpath working_dir);
           files := ∅; marker := None; cmd_table := ∅ |}.

(** The value of [filename] after the first [if] of [add_file]. *)
Definition resolve (cwd : string) (self : workspace) (filename : string) : string :=
  if negb (posixpath.isabs filename)
  then posixpath.abspath cwd
         (posixpath.normpath (posixpath.join (working_dir self) filename))
  else filename.

(** [filename[len(self.working_dir) + 1:]] *)
Definition relname (self : workspace) (filename : string) : string :=
  pystr.slice_from (String.length (working_dir self) + 1) filename.

(** [BaseWorkspace.add_file] *)
Definition add_file (cwd : string) (self : workspace) (filename : string)
    : outcome unit * workspace :=
  let filename := resolve cwd self filename in
  if negb (pystr.startswith filename (working_dir self))
  then (Raises (ValueError "filename not inside working dir"), self)
  else (Returns tt, set_files self ({[ relname self filename ]} ∪ files self)).

(** A run of [add_file] calls, one per element of [l], up to the first
    one that raises. *)
Fixpoint add_files (cwd : string) (self : workspace) (l : list string)
    : outcome unit * workspace :=
  match l with
  | [] => (Returns tt, self)
  | filename :: l' =>
      match add_file cwd self filename with
      | (Returns _, self') => add_files cwd self' l'
      | (Raises e, self') => (Raises e, self')
      end
  end.

(** The resolved path is the working directory, a separator, and more.  No
    resolved path has this form when the working directory is [/] or [//],
    which end with the separator themselves. *)
Definition inside (self : workspace) (path : string) : Prop :=
  pystr.startswith path (working_dir self +:+ "/") = true.

(** The object on which [CmdWorkspace.__init__] runs [initialize], [self0]
    being the object left by [BaseWorkspace.__init__]. *)
Definition fresh (self0 : workspace) (mk : string)
    (t : option (gmap string pyobj)) : workspace :=
  set_marker
    (match t with
     | Some t => if bool_decide (t = ∅) then set_cmd_table self0 ∅
                 else set_cmd_table self0 t
     | None => set_cmd_table self0 ∅
     end) (Some mk).

(** [BaseWorkspace.get_tracked_subpaths]: [sorted(list(self.files))].
    [String.le] is the lexicographic order on character codes, which is
    how Python orders [str] values. *)
Definition get_tracked_subpaths (self : workspace) : list string :=
  merge_sort String.le (elements (files self)).

End Objects.
Arguments pyobj : clear implicits.
Arguments workspace : clear implicits.

(** Truth value of an object ([not cmd] is its negation).  Functions and
    bound methods are always true; an instance of a class with [__call__]
    may define its own truth value, which [callable_bool] supplies. *)
Definition truthy {callable} (callable_bool : callable → bool)
    (v : pyobj callable) : bool :=
  match v with
  | PyNone => false
  | PyBool b => b
  | PyInt z => negb (Z.eqb z 0)
  | PyStr s => negb (String.eqb s "")
  | PyDummyAction => true
  | PyCallable c => callable_bool c
  end.

(** Keyword arguments [**kw]. *)
Abbreviation kwargs callable := (gmap string (pyobj callable)).

Inductive level : Type := DEBUG | INFO.

(** What the module reaches outside of itself: the file system and the
    current directory of the process, and the bodies of the callables found
    in a dispatch table.  A callable receives the workspace by reference, so
    it returns the workspace as it left it. *)
Class Host (callable : Type) : Type := {
  World : Type;
  getcwd : World → string;
  isdir : World → string → bool;
  callable_bool : callable → bool;
  invoke : callable → kwargs callable → workspace callable * World →
           outcome (pyobj callable) * (workspace callable * World)
}.

Section CmdWorkspace.
Context {callable : Type} `{H : Host callable}.

(** The surroundings of a method call: the world, the records handed to
    the module's logger, and the calls made to table entries so far. *)
Record env : Type := mkEnv {
  world : World;
  logs : list (level * string);
  calls : list (callable * kwargs callable)
}.

Definition state : Type := workspace callable * env.
Definition M (A : Type) : Type := state → outcome A * state.

Definition ret {A} (a : A) : M A := fun st => (Returns a, st).
Definition raise {A} (e : exn) : M A := fun st => (Raises e, st).
Definition bind {A B} (m : M A) (k : A → M B) : M B :=
  fun st => match m st with
            | (Returns a, st') => k a st'
            | (Raises e, st') => (Raises e, st')
            end.

Definition get_self : M (workspace callable) := fun st => (Returns (fst st), st).

(** [logger.info(msg)] and [logger.debug(msg)] *)
Definition add_log (e : env) (lv : level) (msg : string) : env :=
  {| world := world e; logs := logs e ++ [(lv, msg)]; calls := calls e |}.

Definition log (lv : level) (msg : string) : M unit :=
  fun '(self, e) => (Returns tt, (self, add_log e lv msg)).

(** [dummy_action(workspace)]: the signature takes no keyword. *)
Definition dummy_action (kw : kwargs callable) : M (pyobj callable) :=
  if bool_decide (kw = ∅) then ret PyNone
  else raise (TypeError "dummy_action() got an unexpected keyword argument").

(** The call [f(self, **kw)]. *)
Definition call_obj (f : pyobj callable) (kw : kwargs callable)
    : M (pyobj callable) :=
  match f with
  | PyDummyAction => dummy_action kw
  | PyCallable c =>
      fun '(self, e) =>
        let '(r, (self', w')) := invoke c kw (self, world e) in
        (r, (self', {| world := w'; logs := logs e;
                       calls := calls e ++ [(c, kw)] |}))
  | _ => raise (TypeError "object is not callable")
  end.

(** [CmdWorkspace.get_cmd] *)
Definition get_cmd (name : string) : M (pyobj callable) :=
  bind get_self (fun self =>
  let cmd := default PyNone (cmd_table self !! name) in
  if negb (truthy callable_bool cmd)
  then bind (log INFO (pystr.fmt_required name)) (fun _ => ret PyDummyAction)
  else ret cmd).

(** [CmdWorkspace.check_marker] *)
Definition check_marker : M bool :=
  bind get_self (fun self =>
  match marker self with
  | None => raise (TypeError "expected str, not NoneType")
  | Some mk =>
      let target := posixpath.join (working_dir self) mk in
      bind (log DEBUG ("checking isdir: " +:+ target)) (fun _ =>
      fun st => (Returns (isdir (world (snd st)) target), st))
  end).

(** [CmdWorkspace.initialize] *)
Definition initialize (kw : kwargs callable) : M (pyobj callable) :=
  bind check_marker (fun marked =>
  if marked : bool
  then bind get_self (fun self =>
       bind (log DEBUG ("already initialized: " +:+ working_dir self)) (fun _ =>
       ret PyNone))
  else bind (get_cmd "init") (fun cmd => call_obj cmd kw)).

(** [CmdWorkspace.save] *)
Definition CmdWorkspace_save (kw : kwargs callable) : M (pyobj callable) :=
  bind (get_cmd "save") (fun cmd => call_obj cmd kw).

(** [CmdWorkspace.__init__]: the new object on success.  [if cmd_table:]
    skips [None] and the empty dictionary alike, and updating the empty
    dictionary with a table yields that table. *)
Definition CmdWorkspace__init__ (working_dir : string) (marker : option string)
    (cmd_table : option (gmap string (pyobj callable))) (e : env)
    : outcome (workspace callable) * env :=
  match marker with
  | None => (Raises AssertionError, e)
  | Some _ =>
      let self := BaseWorkspace__init__ (getcwd (world e)) working_dir in
      let self := set_cmd_table self ∅ in
      let self := match cmd_table with
                  | Some t => if bool_decide (t = ∅) then self
                              else set_cmd_table self t
                  | None => self
                  end in
      let self := set_marker self marker in
      match initialize ∅ (self, e) with
      | (Returns _, (self', e')) => (Returns self', e')
      | (Raises x, (_, e')) => (Raises x, e')
      end
  end.

End CmdWorkspace.

(** ** Commands *)

(** The five primitives a DVCS command is made of, as calls. *)
Inductive prim_call (callable : Type) : Type :=
  | Clone
  | InitNew
  | Add (path : string)
  | Commit (message : pyobj callable)
  | Push.
Arguments Clone {callable}.
Arguments InitNew {callable}.
Arguments Add {callable} path.
Arguments Commit {callable} message.
Arguments Push {callable}.

(** What a primitive sees and may change: the command object (its [remote]
    attribute), the workspace it was handed, and whatever the backend keeps
    outside of both. *)
Record dstate (callable B : Type) : Type := mkDstate {
  remote : pyobj callable;
  d_workspace : workspace callable;
  backend : B
}.
Arguments mkDstate {callable B}.
Arguments remote {callable B}.
Arguments d_workspace {callable B}.
Arguments backend {callable B}.

(** The methods a subclass of [BaseDvcsCmd] overrides. *)
Class DvcsCmd (callable B : Type) : Type := {
  clone : dstate callable B → outcome unit * dstate callable B;
  init_new : dstate callable B → outcome unit * dstate callable B;
  add : string → dstate callable B → outcome unit * dstate callable B;
  commit : pyobj callable → dstate callable B → outcome unit * dstate callable B;
  push : dstate callable B → outcome unit * dstate callable B
}.

(** [BaseDvcsCmd] itself leaves all five unimplemented. *)
Definition BaseDvcsCmd_abstract (callable B : Type) : DvcsCmd callable B := {|
  clone := fun s => (Raises NotImplementedError, s);
  init_new := fun s => (Raises NotImplementedError, s);
  add := fun _ s => (Raises NotImplementedError, s);
  commit := fun _ s => (Raises NotImplementedError, s);
  push := fun s => (Raises NotImplementedError, s)
|}.

Section BaseDvcsCmd.
Context {callable B : Type} `{P : DvcsCmd callable B}.

(** Method dispatch on [self]. *)
Definition run_prim (c : prim_call callable)
    : dstate callable B → outcome unit * dstate callable B :=
  match c with
  | Clone => clone
  | InitNew => init_new
  | Add path => add path
  | Commit message => commit message
  | Push => push
  end.

(** Command methods run on the primitive state and the list of the
    primitive calls made so far, which no primitive can touch. *)
Definition dtrace : Type := dstate callable B * list (prim_call callable).
Definition D (A : Type) : Type := dtrace → outcome A * dtrace.

Definition dret {A} (a : A) : D A := fun st => (Returns a, st).
Definition dbind {A A'} (m : D A) (k : A → D A') : D A' :=
  fun st => match m st with
            | (Returns a, st') => k a st'
            | (Raises e, st') => (Raises e, st')
            end.

(** The call [self.<primitive>(workspace, ...)]. *)
Definition perform (c : prim_call callable) : D unit :=
  fun '(s, tr) => let '(r, s') := run_prim c s in (r, (s', tr ++ [c])).

(** [for x in l: body(x)] *)
Fixpoint for_each {A} (l : list A) (body : A → D unit) : D unit :=
  match l with
  | [] => dret tt
  | x :: l' => dbind (body x) (fun _ => for_each l' body)
  end.

(** [BaseDvcsCmd.init] *)
Definition BaseDvcsCmd_init (kw : kwargs callable) : D unit :=
  fun st =>
    if truthy (fun _ => true) (remote (fst st))
    then perform Clone st
    else perform InitNew st.

(** [BaseDvcsCmd.save]: [message] is bound from the keywords, with the
    default [''], and the remaining keywords are dropped. *)
Definition BaseDvcsCmd_save (kw : kwargs callable) : D unit :=
  let message := default (PyStr "") (kw !! "message") in
  fun st =>
    let paths := get_tracked_subpaths (d_workspace (fst st)) in
    dbind (for_each paths (fun path => perform (Add path))) (fun _ =>
    dbind (perform (Commit message)) (fun _ =>
    perform Push)) st.

End BaseDvcsCmd.

(** ** A command as a dispatch table *)

(** The bound methods [self.init] and [self.save] of a command object. *)
Inductive method : Type := init_method | save_method.

(** [BaseCmd.cmd_table] *)
Definition BaseCmd_cmd_table : gmap string (pyobj method) :=
  {[ "init" := PyCallable init_method; "save" := PyCallable save_method ]}.

(** The part of a backend's state the workspace looks at. *)
Class FileSystem (B : Type) : Type := {
  fs_getcwd : B → string;
  fs_isdir : B → string → bool
}.

(** The world of a workspace driven by one command object. *)
Record cmd_world (B : Type) : Type := mkCmdWorld {
  cw_remote : pyobj method;
  cw_backend : B;
  cw_trace : list (prim_call method)
}.
Arguments mkCmdWorld {B}.
Arguments cw_remote {B}.
Arguments cw_backend {B}.
Arguments cw_trace {B}.

(** Binding the arguments of [self.init(workspace, **kw)] and
    [self.save(workspace, **kw)]: [self] and [workspace] are passed by
    position, so a keyword of either name is a second value for it. *)
Definition binds (kw : kwargs method) : bool :=
  match kw !! "self", kw !! "workspace" with
  | None, None => true
  | _, _ => false
  end.

Definition invoke_method {B} `{DvcsCmd method B} (m : method)
    (kw : kwargs method) (st : workspace method * cmd_world B)
    : outcome (pyobj method) * (workspace method * cmd_world B) :=
  if negb (binds kw)
  then (Raises (TypeError "got multiple values for argument"), st)
  else
  let '(ws, w) := st in
  let body := match m with
              | init_method => BaseDvcsCmd_init kw
              | save_method => BaseDvcsCmd_save kw
              end in
  let '(r, (s', tr')) :=
    body ({| remote := cw_remote w; d_workspace := ws;
             backend := cw_backend w |}, cw_trace w) in
  (match r with Returns _ => Returns PyNone | Raises e => Raises e end,
   (d_workspace s',
    {| cw_remote := remote s'; cw_backend := backend s'; cw_trace := tr' |})).

#[local] Instance cmd_host {B} `{DvcsCmd method B} `{FileSystem B}
    : Host method := {|
  World := cmd_world B;
  getcwd := fun w => fs_getcwd (cw_backend w);
  isdir := fun w p => fs_isdir (cw_backend w) p;
  callable_bool := fun _ => true;
  invoke := invoke_method
|}.

(** ** A stub backend

    A backend that keeps a set of directories: [clone] and [init_new] create
    the marker directory [.stub] in the working directory, the other
    primitives do nothing. *)

Record stub_fs : Type := mkStubFs {
  stub_cwd : string;
  stub_dirs : gset string
}.

Definition stub_mkmarker {callable} (s : dstate callable stub_fs)
    : outcome unit * dstate callable stub_fs :=
  (Returns tt,
   {| remote := remote s; d_workspace := d_workspace s;
      backend := {| stub_cwd := stub_cwd (backend s);
                    stub_dirs := {[ posixpath.join
                                      (working_dir (d_workspace s)) ".stub" ]}
                                 ∪ stub_dirs (backend s) |} |}).

#[local] Instance stub_cmd {callable} : DvcsCmd callable stub_fs := {|
  clone := stub_mkmarker;
  init_new := stub_mkmarker;
  add := fun _ s => (Returns tt, s);
  commit := fun _ s => (Returns tt, s);
  push := fun s => (Returns tt, s)
|}.

#[local] Instance stub_filesystem : FileSystem stub_fs := {|
  fs_getcwd := stub_cwd;
  fs_isdir := fun b p => bool_decide (p ∈ stub_dirs b)
|}.

Definition stub_world (remote : pyobj method) (dirs : gset string)
    : cmd_world stub_fs :=
  {| cw_remote := remote;
     cw_backend := {| stub_cwd := "/home/u"; stub_dirs := dirs |};
     cw_trace := [] |}.

Definition stub_env (remote : pyobj method) (dirs : gset string) : env :=
  {| world := stub_world remote dirs : World; logs := []; calls := [] |}.

(** A plain workspace rooted at [/tmp/ws], as built by a process running in
    [/home/u]. *)
Definition ws_tmp : workspace method := BaseWorkspace__init__ "/home/u" "/tmp/x/../ws/".

(** A stub command object over a workspace that tracks three files. *)
Definition stub_state : dstate method stub_fs :=
  {| remote := PyNone;
     d_workspace := snd (add_files "/home/u" ws_tmp ["b"; "a/c"; "a"]);
     backend := {| stub_cwd := "/home/u"; stub_dirs := ∅ |} |}.

(** A backend with nothing to commit: [add] returns, [commit] raises. *)
Definition nothing_to_commit_cmd {callable} : DvcsCmd callable stub_fs := {|
  clone := stub_mkmarker;
  init_new := stub_mkmarker;
  add := fun _ s => (Returns tt, s);
  commit := fun _ s => (Raises (OtherError "nothing to commit"), s);
  push := fun s => (Returns tt, s)
|}.

(** * Path tracking *)

Section PathTracking.
Context {callable : Type}.
Implicit Types (self : workspace callable) (cwd filename : string).

Lemma app_String (a : ascii) (s t : string) :
  String a s +:+ t = String a (s +:+ t).
Proof. done. Qed.

Lemma prefix_app (p s : string) : String.prefix p (p +:+ s) = true.
Proof.
  induction p as [|a p IH]; simpl; [by destruct s|].
  destruct (ascii_dec a a); [done|congruence].
Qed.

Lemma prefix_inv (p s : string) :
  String.prefix p s = true → ∃ r, s = p +:+ r.
Proof.
  revert s. induction p as [|a p IH]; intros s Hp; [by exists s|].
  destruct s as [|b s]; simpl in Hp; [done|].
  destruct (ascii_dec a b) as [->|]; [|done].
  destruct (IH _ Hp) as [r ->]. by exists r.
Qed.

Lemma slice_from_app (p s : string) :
  pystr.slice_from (String.length p) (p +:+ s) = s.
Proof. induction p; simpl; auto. Qed.

Lemma slice_from_sep (p s : string) :
  pystr.slice_from (String.length p + 1) (p +:+ "/" +:+ s) = s.
Proof. induction p; simpl; auto. Qed.

Lemma app_assoc_str (a b c : string) : (a +:+ b) +:+ c = a +:+ (b +:+ c).
Proof. induction a as [|x a IH]; [done|]. rewrite !app_String. by rewrite IH. Qed.

(** The two branches of [add_file]. *)
Lemma add_file_raises cwd self filename :
  pystr.startswith (resolve cwd self filename) (working_dir self) = false →
  add_file cwd self filename
  = (Raises (ValueError "filename not inside working dir"), self).
Proof. intros Hf. unfold add_file. by rewrite Hf. Qed.

Lemma add_file_returns cwd self filename :
  pystr.startswith (resolve cwd self filename) (working_dir self) = true →
  add_file cwd self filename
  = (Returns tt,
     set_files self ({[ relname self (resolve cwd self filename) ]} ∪ files self)).
Proof. intros Hf. unfold add_file. by rewrite Hf. Qed.

Lemma add_file_cases cwd self filename :
  (add_file cwd self filename
   = (Raises (ValueError "filename not inside working dir"), self))
  ∨ (add_file cwd self filename
     = (Returns tt,
        set_files self ({[ relname self (resolve cwd self filename) ]}
                        ∪ files self))).
Proof.
  destruct (pystr.startswith (resolve cwd self filename) (working_dir self))
    eqn:Hf; [right; by apply add_file_returns|left; by apply add_file_raises].
Qed.

(** Neither [resolve] nor [relname] looks at the tracked set. *)
Lemma resolve_set_files cwd self fs filename :
  resolve cwd (set_files self fs) filename = resolve cwd self filename.
Proof. done. Qed.

Lemma relname_set_files self fs filename :
  relname (set_files self fs) filename = relname self filename.
Proof. done. Qed.

(** The sorted listing: ordered, duplicate free, and made of the tracked
    set. *)
Lemma tracked_sorted self : StronglySorted String.le (get_tracked_subpaths self).
Proof. apply StronglySorted_merge_sort; apply _. Qed.

Lemma tracked_perm self : get_tracked_subpaths self ≡ₚ elements (files self).
Proof. apply merge_sort_Permutation. Qed.

Lemma tracked_NoDup self : NoDup (get_tracked_subpaths self).
Proof. rewrite tracked_perm. apply NoDup_elements. Qed.

Lemma tracked_elem_of self r : r ∈ get_tracked_subpaths self ↔ r ∈ files self.
Proof. rewrite tracked_perm. apply elem_of_elements. Qed.

Lemma tracked_count self r :
  r ∈ files self → count_occ string_dec (get_tracked_subpaths self) r = 1.
Proof.
  intros Hr. apply NoDup_count_occ'.
  - apply NoDup_ListNoDup, tracked_NoDup.
  - apply list_elem_of_In, tracked_elem_of, Hr.
Qed.

(** The listing is a function of the tracked set alone. *)
Lemma tracked_ext self1 self2 :
  files self1 = files self2 →
  get_tracked_subpaths self1 = get_tracked_subpaths self2.
Proof. unfold get_tracked_subpaths. by intros ->. Qed.

End PathTracking.

Section AddFile.
Context {callable : Type}.
Implicit Types (self : workspace callable) (cwd filename : string).

Lemma inside_inv self path :
  inside self path →
  path = working_dir self +:+ "/" +:+ relname self path
  ∧ pystr.startswith path (working_dir self) = true.
Proof.
  unfold inside, pystr.startswith. intros Hp.
  apply prefix_inv in Hp as [r Hr].
  rewrite app_assoc_str in Hr. subst path. split.
  - unfold relname. by rewrite slice_from_sep.
  - apply prefix_app.
Qed.

Lemma isabs_app (a b : string) :
  posixpath.isabs a = true → posixpath.isabs (a +:+ b) = true.
Proof.
  unfold posixpath.isabs, pystr.startswith. intros [r ->]%prefix_inv.
  rewrite app_assoc_str. apply prefix_app.
Qed.

Lemma resolve_isabs cwd self filename :
  posixpath.isabs filename = true → resolve cwd self filename = filename.
Proof. intros Ha. unfold resolve. by rewrite Ha. Qed.

(** What a run of [add_file] calls needs to succeed, and what it leaves. *)
Lemma add_files_returns cwd self l self' :
  add_files cwd self l = (Returns tt, self') ↔
  Forall (λ f, pystr.startswith (resolve cwd self f) (working_dir self) = true) l
  ∧ self' = set_files self
              (list_to_set ((λ f, relname self (resolve cwd self f)) <$> l)
               ∪ files self).
Proof.
  revert self. induction l as [|f l IH]; intros self; simpl.
  - split.
    + intros [= <-]. split; [constructor|].
      destruct self; unfold set_files; simpl; f_equal. set_solver.
    + intros [_ ->]. do 2 f_equal.
      destruct self; unfold set_files; simpl; f_equal. set_solver.
  - destruct (add_file_cases cwd self f) as [Hr|Hr]; rewrite Hr.
    + split; [done|]. intros [Hall _]. apply Forall_cons in Hall as [Hf _].
      unfold add_file in Hr. by rewrite Hf in Hr.
    + rewrite IH. simpl.
      assert (pystr.startswith (resolve cwd self f) (working_dir self) = true)
        as Hf.
      { unfold add_file in Hr.
        destruct (pystr.startswith _ _); [done|discriminate]. }
      split.
      * intros [Hall ->]. split; [by constructor|].
        unfold set_files; simpl. f_equal. set_solver.
      * intros [Hall ->]. apply Forall_cons in Hall as [_ Hall].
        split; [done|]. unfold set_files; simpl. f_equal. set_solver.
Qed.

(** The constructor leaves an absolute working directory whenever the
    current directory of the process is absolute. *)
Lemma normpath_isabs (path : string) :
  posixpath.isabs path = true → posixpath.isabs (posixpath.normpath path) = true.
Proof.
  intros Ha.
  assert (∀ x, posixpath.isabs
                 (if String.eqb ("/" +:+ x) "" then "." else "/" +:+ x) = true)
    as Hsep.
  { intros x. change ("/" +:+ x) with (String "/" x). cbn [String.eqb].
    apply (prefix_app "/" x). }
  unfold posixpath.normpath, posixpath.initial_slashes.
  unfold posixpath.isabs in Ha. rewrite Ha.
  destruct path as [|c path]; [done|]. cbn [String.eqb].
  destruct (_ && _)%bool; apply Hsep.
Qed.

Lemma abspath_isabs cwd (path : string) :
  posixpath.isabs cwd = true → posixpath.isabs (posixpath.abspath cwd path) = true.
Proof.
  intros Hc. unfold posixpath.abspath. apply normpath_isabs.
  destruct (posixpath.isabs path) eqn:Hp; [done|].
  unfold posixpath.join. unfold posixpath.isabs in Hp. rewrite Hp.
  destruct (_ || _)%bool; by apply isabs_app.
Qed.

Lemma BaseWorkspace__init__isabs cwd (wd : string) :
  posixpath.isabs cwd = true →
  posixpath.isabs (working_dir (BaseWorkspace__init__ (callable:=callable) cwd wd))
  = true.
Proof. apply abspath_isabs. Qed.

End AddFile.

(** ** Claims on path tracking *)

(** C1 (evaluation at the failing inputs).  In the workspace rooted at
    [/tmp/ws], [add_file] does not raise for a file of the sibling directory
    [/tmp/ws2], for the working directory itself, or for an absolute path
    that climbs out of it with [..]; each call returns and leaves a new
    entry in the tracked set. *)
Theorem add_file_accepts_paths_outside :
  get_tracked_subpaths ws_tmp = []
  ∧ (let r := add_file "/home/u" ws_tmp "/tmp/ws2/file" in
     fst r = Returns tt ∧ get_tracked_subpaths (snd r) = ["/file"])
  ∧ (let r := add_file "/home/u" ws_tmp "/tmp/ws" in
     fst r = Returns tt ∧ get_tracked_subpaths (snd r) = [""])
  ∧ (let r := add_file "/home/u" ws_tmp "/tmp/ws/../etc/passwd" in
     fst r = Returns tt ∧ get_tracked_subpaths (snd r) = ["../etc/passwd"]).
Proof. repeat split; vm_compute; reflexivity. Qed.

(** What the check of [add_file] does catch: a path whose resolved form does
    not start with the working directory is refused with the [ValueError],
    and the workspace is left as it was. *)
Lemma add_file_refuses_non_prefix {callable} (cwd : string)
    (self : workspace callable) (filename : string) :
  pystr.startswith (resolve cwd self filename) (working_dir self) = false →
  fst (add_file cwd self filename)
  = Raises (ValueError "filename not inside working dir")
  ∧ snd (add_file cwd self filename) = self.
Proof. intros Hf. by rewrite add_file_raises. Qed.

(** C5 (evaluation at the failing input).  In the workspace of the root
    directory [/], the relative path [foo] resolves to [/foo], which lies in
    the working directory; [add_file] returns, but the name it tracks is
    [oo]: the listing does not hold [foo]. *)
Theorem add_file_root_workspace_drops_character :
  let self : workspace method := BaseWorkspace__init__ "/home/u" "/" in
  let r := add_file "/home/u" self "foo" in
  working_dir self = "/"
  ∧ posixpath.isabs "foo" = false
  ∧ resolve "/home/u" self "foo" = "/foo"
  ∧ fst r = Returns tt
  ∧ get_tracked_subpaths (snd r) = ["oo"]
  ∧ count_occ string_dec (get_tracked_subpaths (snd r)) "foo" = 0.
Proof. repeat split; vm_compute; reflexivity. Qed.

(** Away from the root directories the relative form is tracked as meant.
    Let [p] be a relative path whose resolved form [a] is the working
    directory, a separator and a rest [rel].  Then [add_file p] returns, and
    so does a second [add_file p] and an [add_file a]; after one call as
    after two, [rel] occurs exactly once in [get_tracked_subpaths()]. *)
Theorem add_file_inside_tracked_once {callable} (cwd : string)
    (self : workspace callable) (p : string) :
  posixpath.isabs (working_dir self) = true →
  posixpath.isabs p = false →
  inside self (resolve cwd self p) →
  let a := resolve cwd self p in
  let rel := relname self a in
  a = working_dir self +:+ "/" +:+ rel
  ∧ ∃ self1 self2 self3,
      add_file cwd self p = (Returns tt, self1)
      ∧ add_file cwd self1 p = (Returns tt, self2)
      ∧ add_file cwd self1 a = (Returns tt, self3)
      ∧ count_occ string_dec (get_tracked_subpaths self1) rel = 1
      ∧ count_occ string_dec (get_tracked_subpaths self2) rel = 1
      ∧ count_occ string_dec (get_tracked_subpaths self3) rel = 1.
Proof.
  intros Hwd Hp Hin a rel.
  destruct (inside_inv _ _ Hin) as [Ha Hstart].
  assert (a = resolve cwd self p) as Ea by reflexivity.
  assert (rel = relname self a) as Er by reflexivity.
  clearbody rel. clearbody a.
  rewrite <- Ea in Ha, Hstart. rewrite <- Er in Ha.
  split; [exact Ha|].
  assert (posixpath.isabs a = true) as Habs.
  { rewrite Ha. by apply isabs_app. }
  assert (add_file cwd self p
          = (Returns tt, set_files self ({[ rel ]} ∪ files self))) as H1.
  { rewrite add_file_returns; rewrite <- Ea; [|exact Hstart]. by rewrite <- Er. }
  assert (∀ fs q, resolve cwd (set_files self fs) q = a →
            add_file cwd (set_files self fs) q
            = (Returns tt, set_files (set_files self fs) ({[ rel ]} ∪ fs))) as H2.
  { intros fs q Hq. rewrite add_file_returns; rewrite Hq; [|exact Hstart].
    rewrite relname_set_files. by rewrite <- Er. }
  eexists _, _, _. split; [exact H1|].
  split; [apply H2; by rewrite resolve_set_files|].
  split; [apply H2; by apply resolve_isabs|].
  repeat split; apply tracked_count; cbn [files set_files]; set_solver.
Qed.

Lemma add_file_inside_tracked_once_witness :
  posixpath.isabs (working_dir ws_tmp) = true
  ∧ posixpath.isabs "docs/../src/./main.py" = false
  ∧ resolve "/home/u" ws_tmp "docs/../src/./main.py" = "/tmp/ws/src/main.py"
  ∧ ∃ self1 self2 self3,
      add_file "/home/u" ws_tmp "docs/../src/./main.py" = (Returns tt, self1)
      ∧ add_file "/home/u" self1 "docs/../src/./main.py" = (Returns tt, self2)
      ∧ add_file "/home/u" self1 "/tmp/ws/src/main.py" = (Returns tt, self3)
      ∧ count_occ string_dec (get_tracked_subpaths self1) "src/main.py" = 1
      ∧ count_occ string_dec (get_tracked_subpaths self2) "src/main.py" = 1
      ∧ count_occ string_dec (get_tracked_subpaths self3) "src/main.py" = 1.
Proof.
  split; [reflexivity|]. split; [reflexivity|]. split; [reflexivity|].
  apply (add_file_inside_tracked_once "/home/u" ws_tmp "docs/../src/./main.py");
    reflexivity.
Defined.

(** C6.  Two runs of successful [add_file] calls that add the same file
    names in different orders leave the same [get_tracked_subpaths()]: the
    tracked names, each once, in lexicographic order. *)
Theorem tracked_subpaths_order_independent {callable} (cwd : string)
    (self self1 : workspace callable) (l1 l2 : list string) :
  l1 ≡ₚ l2 →
  add_files cwd self l1 = (Returns tt, self1) →
  ∃ self2,
    add_files cwd self l2 = (Returns tt, self2)
    ∧ get_tracked_subpaths self2 = get_tracked_subpaths self1
    ∧ StronglySorted String.le (get_tracked_subpaths self1)
    ∧ NoDup (get_tracked_subpaths self1)
    ∧ ∀ r, r ∈ get_tracked_subpaths self1 ↔
           r ∈ files self ∨ ∃ f, f ∈ l1 ∧ r = relname self (resolve cwd self f).
Proof.
  intros Hperm [Hall ->]%add_files_returns.
  eexists. split.
  { apply add_files_returns. split; [by rewrite <- Hperm|reflexivity]. }
  split.
  { apply tracked_ext. simpl. f_equal. apply set_eq. intros r.
    rewrite !elem_of_list_to_set. by rewrite Hperm. }
  split; [apply tracked_sorted|]. split; [apply tracked_NoDup|].
  intros r. rewrite tracked_elem_of. simpl.
  rewrite elem_of_union, elem_of_list_to_set, list_elem_of_fmap. naive_solver.
Qed.

Lemma tracked_subpaths_order_independent_witness :
  ["b"; "a/c"; "a"] ≡ₚ ["a"; "b"; "a/c"]
  ∧ get_tracked_subpaths (snd (add_files "/home/u" ws_tmp ["b"; "a/c"; "a"]))
    = ["a"; "a/c"; "b"]
  ∧ ∃ self2,
      add_files "/home/u" ws_tmp ["a"; "b"; "a/c"] = (Returns tt, self2)
      ∧ get_tracked_subpaths self2 = ["a"; "a/c"; "b"].
Proof.
  assert (["b"; "a/c"; "a"] ≡ₚ ["a"; "b"; "a/c"]) as Hperm.
  { apply (Permutation_app_comm ["b"; "a/c"] ["a"]). }
  split; [exact Hperm|]. split; [vm_compute; reflexivity|].
  destruct (tracked_subpaths_order_independent "/home/u" ws_tmp
              (snd (add_files "/home/u" ws_tmp ["b"; "a/c"; "a"]))
              ["b"; "a/c"; "a"] ["a"; "b"; "a/c"] Hperm)
    as (self2 & Hrun & Heq & _).
  { vm_compute; reflexivity. }
  exists self2. split; [exact Hrun|]. rewrite Heq. vm_compute; reflexivity.
Defined.

(** * Command-driven workspaces *)

Section DispatchTable.
Context {callable : Type} `{H : Host callable}.
Implicit Types (self : workspace callable) (e : env) (kw : kwargs callable).

(** The two ways out of [get_cmd]. *)
Lemma get_cmd_dummy self e name :
  truthy callable_bool (default PyNone (cmd_table self !! name)) = false →
  get_cmd name (self, e)
  = (Returns PyDummyAction, (self, add_log e INFO (pystr.fmt_required name))).
Proof. intros Hf. unfold get_cmd, bind, get_self; simpl. by rewrite Hf. Qed.

Lemma get_cmd_bound self e name v :
  cmd_table self !! name = Some v → truthy callable_bool v = true →
  get_cmd name (self, e) = (Returns v, (self, e)).
Proof.
  intros Hv Ht. unfold get_cmd, bind, get_self; simpl. rewrite Hv; simpl.
  by rewrite Ht.
Qed.

(** [dummy_action] accepts the workspace alone. *)
Lemma call_dummy self e kw :
  call_obj PyDummyAction kw (self, e)
  = (if bool_decide (kw = ∅) then Returns PyNone
     else Raises (TypeError "dummy_action() got an unexpected keyword argument"),
     (self, e)).
Proof. unfold call_obj, dummy_action. by case_bool_decide. Qed.

(** [save()] on a table without a true ['save'] entry: the diagnostic is
    logged, nothing is invoked, and the outcome depends on whether any
    keyword was passed. *)
Lemma save_without_entry self e kw :
  truthy callable_bool (default PyNone (cmd_table self !! "save")) = false →
  CmdWorkspace_save kw (self, e)
  = (if bool_decide (kw = ∅) then Returns PyNone
     else Raises (TypeError "dummy_action() got an unexpected keyword argument"),
     (self, add_log e INFO "save required but no init defined")).
Proof.
  intros Hf. unfold CmdWorkspace_save, bind.
  rewrite (get_cmd_dummy _ _ _ Hf). apply call_dummy.
Qed.

Lemma fresh_working_dir self0 mk t : working_dir (fresh self0 mk t) = working_dir self0.
Proof. unfold fresh. destruct t as [t|]; [case_bool_decide|]; done. Qed.

Lemma fresh_marker self0 mk t : marker (fresh self0 mk t) = Some mk.
Proof. done. Qed.

Lemma fresh_cmd_table self0 mk t v name :
  t !! name = Some v → cmd_table (fresh self0 mk (Some t)) = t.
Proof.
  intros Hv. unfold fresh. case_bool_decide as Ht; [|done].
  subst t. by rewrite lookup_empty in Hv.
Qed.

Lemma check_marker_eq self e mk :
  marker self = Some mk →
  check_marker (self, e)
  = (Returns (isdir (world e) (posixpath.join (working_dir self) mk)),
     (self, add_log e DEBUG
              ("checking isdir: " +:+ posixpath.join (working_dir self) mk))).
Proof. intros Hm. unfold check_marker, bind, get_self; simpl. by rewrite Hm. Qed.

(** With the marker directory in place, [initialize] only logs. *)
Lemma initialize_marked self e mk kw :
  marker self = Some mk →
  isdir (world e) (posixpath.join (working_dir self) mk) = true →
  ∃ e', initialize kw (self, e) = (Returns PyNone, (self, e'))
        ∧ world e' = world e ∧ calls e' = calls e.
Proof.
  intros Hm Hd. unfold initialize, bind at 1.
  rewrite (check_marker_eq _ _ _ Hm), Hd. by eexists.
Qed.

(** Without it, a true ['init'] entry is called once, with the keywords. *)
Lemma initialize_unmarked self e mk kw c :
  marker self = Some mk →
  isdir (world e) (posixpath.join (working_dir self) mk) = false →
  cmd_table self !! "init" = Some (PyCallable c) → callable_bool c = true →
  calls (snd (snd (initialize kw (self, e)))) = calls e ++ [(c, kw)].
Proof.
  intros Hm Hd Hc Ht. unfold initialize, bind at 1.
  rewrite (check_marker_eq _ _ _ Hm), Hd. unfold bind.
  rewrite (get_cmd_bound _ _ _ _ Hc Ht). simpl.
  by destruct (invoke c kw _) as [r [self' w']].
Qed.

Lemma CmdWorkspace__init__eq wd mk t e :
  CmdWorkspace__init__ wd (Some mk) t e
  = match initialize ∅
            (fresh (BaseWorkspace__init__ (getcwd (world e)) wd) mk t, e) with
    | (Returns _, (self', e')) => (Returns self', e')
    | (Raises x, (_, e')) => (Raises x, e')
    end.
Proof.
  unfold CmdWorkspace__init__, fresh.
  destruct t as [t|]; [case_bool_decide|]; done.
Qed.

End DispatchTable.

(** ** Claims on command-driven workspaces *)

(** C7.  [CmdWorkspace(working_dir)] without a marker raises at the
    [assert], whatever table is passed, before anything is logged, looked up
    or called: the surroundings are left as they were. *)
Theorem CmdWorkspace_requires_marker {callable} `{H : Host callable}
    (wd : string) (t : option (gmap string (pyobj callable))) (e : env) :
  CmdWorkspace__init__ wd None t e = (Raises AssertionError, e).
Proof. reflexivity. Qed.

(** C9.  An entry bound to a false value is looked up like no entry at all:
    [get_cmd] logs the diagnostic and returns [dummy_action], as it does on
    the table with that entry deleted, and calling the result adds nothing
    to the calls made to table entries. *)
Theorem get_cmd_falsy_is_missing {callable} `{H : Host callable}
    (self : workspace callable) (e : env) (name : string)
    (v : pyobj callable) (kw : kwargs callable) :
  cmd_table self !! name = Some v →
  truthy callable_bool v = false →
  let missing := set_cmd_table self (delete name (cmd_table self)) in
  get_cmd name (self, e)
  = (Returns PyDummyAction, (self, add_log e INFO (pystr.fmt_required name)))
  ∧ get_cmd name (missing, e)
    = (Returns PyDummyAction, (missing, add_log e INFO (pystr.fmt_required name)))
  ∧ calls (snd (snd (bind (get_cmd name) (λ cmd, call_obj cmd kw) (self, e))))
    = calls e.
Proof.
  intros Hv Hf missing.
  assert (get_cmd name (self, e)
          = (Returns PyDummyAction,
             (self, add_log e INFO (pystr.fmt_required name)))) as Hget.
  { apply get_cmd_dummy. by rewrite Hv. }
  split; [exact Hget|]. split.
  - apply get_cmd_dummy. unfold missing; cbn [cmd_table set_cmd_table].
    by rewrite lookup_delete_eq.
  - unfold bind. rewrite Hget, call_dummy. done.
Qed.

Lemma get_cmd_falsy_is_missing_witness :
  let self : workspace method := set_cmd_table ws_tmp {[ "save" := PyNone ]} in
  let e := stub_env PyNone ∅ in
  cmd_table self !! "save" = Some PyNone
  ∧ get_cmd "save" (self, e)
    = (Returns PyDummyAction,
       (self, add_log e INFO "save required but no init defined")).
Proof.
  intros self e. split; [reflexivity|].
  apply (get_cmd_falsy_is_missing self e "save" PyNone ∅); reflexivity.
Defined.

(** C3 (evaluation at the failing input).  A workspace built over a table
    with an ['init'] entry only: [save(message='m')] raises the [TypeError]
    of a call that passes a keyword to [dummy_action(workspace)], while
    [save()] without keywords returns [None]. *)
Theorem save_without_entry_rejects_message :
  match CmdWorkspace__init__ "/tmp/ws" (Some ".stub")
          (Some {[ "init" := PyCallable init_method ]}) (stub_env PyNone ∅) with
  | (Returns self, e) =>
      cmd_table self !! "save" = None
      ∧ fst (CmdWorkspace_save {[ "message" := PyStr "m" ]} (self, e))
        = Raises (TypeError "dummy_action() got an unexpected keyword argument")
      ∧ fst (CmdWorkspace_save ∅ (self, e)) = Returns PyNone
  | (Raises _, _) => False
  end.
Proof. vm_compute. repeat split; reflexivity. Qed.

(** C4.  When the table binds ['init'] to a callable, constructing the
    workspace calls it with the new workspace and no keyword exactly when
    [join(working_dir, marker)] is not a directory: no call is made when it
    is one, and then the construction returns and leaves the world as it
    was. *)
Theorem init_called_iff_marker_absent {callable} `{H : Host callable}
    (wd mk : string) (t : gmap string (pyobj callable)) (c : callable) (e : env) :
  t !! "init" = Some (PyCallable c) →
  callable_bool c = true →
  let target := posixpath.join
                  (posixpath.abspath (getcwd (world e)) (posixpath.normpath wd))
                  mk in
  let r := CmdWorkspace__init__ wd (Some mk) (Some t) e in
  calls (snd r) = calls e ++ (if isdir (world e) target then [] else [(c, ∅)])
  ∧ (isdir (world e) target = true →
     world (snd r) = world e ∧ is_returns (fst r) = true).
Proof.
  intros Hc Ht target r. unfold r. rewrite CmdWorkspace__init__eq.
  set (self0 := fresh (BaseWorkspace__init__ (getcwd (world e)) wd) mk (Some t)).
  assert (marker self0 = Some mk) as Hm by apply fresh_marker.
  assert (posixpath.join (working_dir self0) mk = target) as Htarget.
  { unfold self0. by rewrite fresh_working_dir. }
  assert (cmd_table self0 !! "init" = Some (PyCallable c)) as Hc'.
  { unfold self0. by rewrite (fresh_cmd_table _ _ _ _ _ Hc). }
  clearbody self0. destruct (isdir (world e) target) eqn:Hd.
  - destruct (initialize_marked self0 e mk ∅ Hm) as (e' & -> & Hw & Hcalls).
    { by rewrite Htarget. }
    simpl. rewrite Hcalls, app_nil_r. done.
  - pose proof (initialize_unmarked self0 e mk ∅ c Hm) as Hcalls.
    rewrite Htarget in Hcalls. specialize (Hcalls Hd Hc' Ht).
    destruct (initialize ∅ (self0, e)) as [[v|x] [self' e']];
      simpl in *; by rewrite Hcalls.
Qed.

Lemma init_called_iff_marker_absent_witness :
  BaseCmd_cmd_table !! "init" = Some (PyCallable init_method)
  ∧ calls (snd (CmdWorkspace__init__ "/tmp/ws" (Some ".stub")
                  (Some BaseCmd_cmd_table) (stub_env PyNone ∅)))
    = [(init_method, ∅)]
  ∧ calls (snd (CmdWorkspace__init__ "/tmp/ws" (Some ".stub")
                  (Some BaseCmd_cmd_table)
                  (stub_env PyNone {[ "/tmp/ws/.stub" ]})))
    = [].
Proof.
  split; [reflexivity|]. split.
  - exact (proj1 (init_called_iff_marker_absent "/tmp/ws" ".stub"
                    BaseCmd_cmd_table init_method (stub_env PyNone ∅)
                    eq_refl eq_refl)).
  - exact (proj1 (init_called_iff_marker_absent "/tmp/ws" ".stub"
                    BaseCmd_cmd_table init_method
                    (stub_env PyNone {[ "/tmp/ws/.stub" ]}) eq_refl eq_refl)).
Defined.

(** * The generic DVCS protocol *)

Section Protocol.
Context {callable B : Type} `{P : DvcsCmd callable B}.
Implicit Types (s : dstate callable B) (tr : list (prim_call callable))
  (kw : kwargs callable).

(** A primitive call is recorded whether or not it returns. *)
Lemma perform_eq c s tr :
  perform c (s, tr) = (fst (run_prim c s), (snd (run_prim c s), tr ++ [c])).
Proof. unfold perform. by destruct (run_prim c s). Qed.

(** The loop over the tracked paths, when no [add] raises. *)
Lemma for_each_add paths s tr :
  (∀ path s', fst (add path s') = Returns tt) →
  ∃ s1, for_each paths (λ path, perform (Add path)) (s, tr)
        = (Returns tt, (s1, tr ++ (Add <$> paths))).
Proof.
  intros Hadd. revert s tr. induction paths as [|path paths IH]; intros s tr.
  - exists s. simpl. by rewrite app_nil_r.
  - simpl. unfold dbind. rewrite perform_eq. simpl. rewrite Hadd.
    destruct (IH (snd (add path s)) (tr ++ [Add path])) as [s1 ->].
    exists s1. by rewrite <- app_assoc.
Qed.

(** [save] up to the [commit]. *)
Lemma save_after_adds kw s tr :
  (∀ path s', fst (add path s') = Returns tt) →
  ∃ s1, BaseDvcsCmd_save kw (s, tr)
        = dbind (perform (Commit (default (PyStr "") (kw !! "message"))))
            (λ _, perform Push)
            (s1, tr ++ (Add <$> get_tracked_subpaths (d_workspace s))).
Proof.
  intros Hadd. unfold BaseDvcsCmd_save. cbn [fst].
  destruct (for_each_add (get_tracked_subpaths (d_workspace s)) s tr Hadd)
    as [s1 Hloop].
  exists s1. unfold dbind at 1. by rewrite Hloop.
Qed.

(** The whole of [save], when no primitive raises. *)
Lemma save_calls kw s tr :
  (∀ c s', fst (run_prim c s') = Returns tt) →
  ∃ s', BaseDvcsCmd_save kw (s, tr)
        = (Returns tt,
           (s', tr ++ (Add <$> get_tracked_subpaths (d_workspace s))
                   ++ [Commit (default (PyStr "") (kw !! "message")); Push])).
Proof.
  intros Hok.
  destruct (save_after_adds kw s tr) as [s1 ->].
  { intros path s'. apply (Hok (Add path)). }
  unfold dbind. rewrite perform_eq, Hok, perform_eq, Hok.
  eexists. by rewrite <- !app_assoc.
Qed.

End Protocol.

(** ** Claims on the protocol *)

(** C2.  When no primitive raises, [save(workspace, message=m)] calls [add]
    for the tracked paths, each once and in lexicographic order, then
    [commit] with [m], then [push], and nothing else. *)
Theorem save_adds_commits_pushes {callable B : Type} `{P : DvcsCmd callable B}
    (kw : kwargs callable) (m : pyobj callable) (s : dstate callable B)
    (tr : list (prim_call callable)) :
  kw !! "message" = Some m →
  (∀ c s', fst (run_prim c s') = Returns tt) →
  let paths := get_tracked_subpaths (d_workspace s) in
  (∃ s', BaseDvcsCmd_save kw (s, tr)
         = (Returns tt, (s', tr ++ (Add <$> paths) ++ [Commit m; Push])))
  ∧ StronglySorted String.le paths
  ∧ NoDup paths
  ∧ ∀ path, path ∈ paths ↔ path ∈ files (d_workspace s).
Proof.
  intros Hm Hok paths. split.
  - destruct (save_calls kw s tr Hok) as [s' Hs]. exists s'.
    rewrite Hs, Hm. done.
  - split; [apply tracked_sorted|]. split; [apply tracked_NoDup|].
    apply tracked_elem_of.
Qed.

Lemma save_adds_commits_pushes_witness :
  ∃ s', BaseDvcsCmd_save {[ "message" := PyStr "m" ]} (stub_state, [])
        = (Returns tt,
           (s', [Add "a"; Add "a/c"; Add "b"; Commit (PyStr "m"); Push])).
Proof.
  destruct (save_adds_commits_pushes {[ "message" := PyStr "m" ]} (PyStr "m")
              stub_state []) as [[s' Hs] _].
  - reflexivity.
  - intros [] ?; reflexivity.
  - exists s'. rewrite Hs. vm_compute. reflexivity.
Defined.

(** C8.  [init] calls exactly one primitive: [clone] when [self.remote] is
    true, that is when it is a non-empty string, and [init_new] when it is
    [None] or empty; the outcome of [init] is the outcome of that call. *)
Theorem init_clone_or_init_new {callable B : Type} `{P : DvcsCmd callable B}
    (kw : kwargs callable) (s : dstate callable B)
    (tr : list (prim_call callable)) :
  let chosen := if truthy (λ _, true) (remote s) then Clone else InitNew in
  BaseDvcsCmd_init kw (s, tr)
  = (fst (run_prim chosen s), (snd (run_prim chosen s), tr ++ [chosen]))
  ∧ (remote s = PyNone → chosen = InitNew)
  ∧ (∀ url, remote s = PyStr url → chosen = if String.eqb url "" then InitNew else Clone).
Proof.
  intros chosen. split.
  - unfold BaseDvcsCmd_init, chosen. cbn [fst].
    destruct (truthy _ (remote s)); apply perform_eq.
  - unfold chosen. split.
    + by intros ->.
    + intros url ->. simpl. by destruct (String.eqb url "").
Qed.

(** C10.  Without a [message] keyword, and when no [add] raises, [save]
    calls [commit] with the empty string right after the [add] calls; it is
    followed by [push] or, if [commit] raised, by nothing. *)
Theorem save_default_message {callable B : Type} `{P : DvcsCmd callable B}
    (kw : kwargs callable) (s : dstate callable B)
    (tr : list (prim_call callable)) :
  kw !! "message" = None →
  (∀ path s', fst (add path s') = Returns tt) →
  ∃ rest,
    snd (snd (BaseDvcsCmd_save kw (s, tr)))
    = tr ++ (Add <$> get_tracked_subpaths (d_workspace s))
         ++ Commit (PyStr "") :: rest
    ∧ (rest = [] ∨ rest = [Push]).
Proof.
  intros Hm Hadd. destruct (save_after_adds kw s tr Hadd) as [s1 ->].
  rewrite Hm. cbn [default from_option]. unfold dbind. rewrite perform_eq.
  destruct (fst (run_prim (Commit (PyStr "")) s1)).
  - exists [Push]. rewrite perform_eq. cbn [snd]. split; [|by right].
    by rewrite <- !app_assoc.
  - exists []. cbn [snd]. split; [|by left]. by rewrite <- !app_assoc.
Qed.

Lemma save_default_message_witness :
  (∅ : kwargs method) !! "message" = None
  ∧ ∃ rest,
      snd (snd (BaseDvcsCmd_save ∅ (stub_state, [])))
      = [] ++ (Add <$> get_tracked_subpaths (d_workspace stub_state))
           ++ Commit (PyStr "") :: rest
      ∧ (rest = [] ∨ rest = [Push]).
Proof.
  split; [reflexivity|].
  apply (save_default_message ∅ stub_state []);
    [reflexivity|intros ? ?; reflexivity].
Defined.

(** * Further properties of path tracking *)

(** X1.  [add_file] touches nothing but the tracked set, and the tracked set
    only grows: it is left as it was or gains the one name computed from the
    argument. *)
Theorem add_file_preserves {callable} (cwd : string)
    (self : workspace callable) (filename : string) :
  let self' := snd (add_file cwd self filename) in
  working_dir self' = working_dir self
  ∧ marker self' = marker self
  ∧ cmd_table self' = cmd_table self
  ∧ files self ⊆ files self'
  ∧ (files self' = files self
     ∨ files self' = {[ relname self (resolve cwd self filename) ]} ∪ files self).
Proof.
  intros self'. unfold self'.
  destruct (add_file_cases cwd self filename) as [-> | ->]; cbn [snd].
  - repeat split; [done|by left].
  - cbn [working_dir marker cmd_table files set_files].
    repeat split; [set_solver|by right].
Qed.

(** X2.  [add_file] returns exactly when the resolved file name is the
    working directory followed by some text [r], of which it then tracks all
    but the first character, whatever that character is; otherwise it raises
    the [ValueError] and leaves the object as it was. *)
Theorem add_file_accepts_iff_prefix {callable} (cwd : string)
    (self : workspace callable) (filename : string) :
  (∃ r, resolve cwd self filename = working_dir self +:+ r
        ∧ add_file cwd self filename
          = (Returns tt,
             set_files self ({[ pystr.slice_from 1 r ]} ∪ files self)))
  ∨ ((∀ r, resolve cwd self filename ≠ working_dir self +:+ r)
     ∧ add_file cwd self filename
       = (Raises (ValueError "filename not inside working dir"), self)).
Proof.
  destruct (pystr.startswith (resolve cwd self filename) (working_dir self))
    eqn:Hs.
  - left. destruct (prefix_inv _ _ Hs) as [r Hr]. exists r. split; [exact Hr|].
    rewrite (add_file_returns _ _ _ Hs). do 3 f_equal.
    unfold relname. rewrite Hr. clear Hr Hs.
    induction (working_dir self) as [|c wd IH]; [done|exact IH].
  - right. split; [|by apply add_file_raises].
    intros r Hr. unfold pystr.startswith in Hs.
    by rewrite Hr, prefix_app in Hs.
Qed.

(** Whether a call succeeds, and the name it adds, do not depend on what is
    tracked already. *)
Lemma add_file_set_files {callable} (cwd : string)
    (self : workspace callable) (fs : gset string) (filename : string) :
  add_file cwd (set_files self fs) filename
  = (fst (add_file cwd self filename),
     if is_returns (fst (add_file cwd self filename))
     then set_files self ({[ relname self (resolve cwd self filename) ]} ∪ fs)
     else set_files self fs).
Proof.
  destruct (pystr.startswith (resolve cwd self filename) (working_dir self))
    eqn:Hs.
  - rewrite (add_file_returns cwd self filename Hs).
    rewrite (add_file_returns cwd (set_files self fs) filename);
      [reflexivity|exact Hs].
  - rewrite (add_file_raises cwd self filename Hs).
    rewrite (add_file_raises cwd (set_files self fs) filename);
      [reflexivity|exact Hs].
Qed.

Lemma add_file_snd {callable} (cwd : string)
    (self : workspace callable) (filename : string) :
  snd (add_file cwd self filename)
  = set_files self
      (if is_returns (fst (add_file cwd self filename))
       then {[ relname self (resolve cwd self filename) ]} ∪ files self
       else files self).
Proof.
  destruct (add_file_cases cwd self filename) as [-> | ->];
    cbn [fst snd is_returns]; [by destruct self|done].
Qed.

(** X3.  Adding a file name a second time changes nothing, and two calls
    can be swapped: the outcome of each call and the object left behind are
    the same in either order, whether or not a call raises. *)
Theorem add_file_idempotent_commutes {callable} (cwd : string)
    (self : workspace callable) (f g : string) :
  snd (add_file cwd (snd (add_file cwd self f)) f) = snd (add_file cwd self f)
  ∧ fst (add_file cwd (snd (add_file cwd self g)) f) = fst (add_file cwd self f)
  ∧ snd (add_file cwd (snd (add_file cwd self f)) g)
    = snd (add_file cwd (snd (add_file cwd self g)) f).
Proof.
  rewrite (add_file_snd cwd self f), (add_file_snd cwd self g).
  rewrite !add_file_set_files. cbn [fst snd].
  destruct (is_returns (fst (add_file cwd self f))),
           (is_returns (fst (add_file cwd self g)));
    (split; [|split; [reflexivity|]]); unfold set_files; f_equal; set_solver.
Qed.

(** X4.  An absolute argument is taken as it is: for a workspace with an
    absolute working directory [wd], [add_file(wd + '/' + rel)] returns and
    tracks [rel] character for character, without normalizing it. *)
Theorem add_file_absolute_verbatim {callable} (cwd : string)
    (self : workspace callable) (rel : string) :
  posixpath.isabs (working_dir self) = true →
  add_file cwd self (working_dir self +:+ "/" +:+ rel)
  = (Returns tt, set_files self ({[ rel ]} ∪ files self)).
Proof.
  intros Hwd.
  assert (resolve cwd self (working_dir self +:+ "/" +:+ rel)
          = working_dir self +:+ "/" +:+ rel) as Hr.
  { apply resolve_isabs. by apply isabs_app. }
  rewrite add_file_returns; rewrite Hr; [|apply prefix_app].
  unfold relname. by rewrite slice_from_sep.
Qed.

Lemma add_file_absolute_verbatim_witness :
  posixpath.isabs (working_dir ws_tmp) = true
  ∧ add_file "/home/u" ws_tmp "/tmp/ws/./a/../b"
    = (Returns tt, set_files ws_tmp ({[ "./a/../b" ]} ∪ files ws_tmp)).
Proof.
  split; [reflexivity|].
  exact (add_file_absolute_verbatim "/home/u" ws_tmp "./a/../b" eq_refl).
Defined.



(** X6.  A process with an absolute current directory constructs workspaces
    with an absolute working directory, no marker and nothing tracked. *)
Theorem BaseWorkspace_constructed {callable} (cwd wd : string) :
  posixpath.isabs cwd = true →
  let self : workspace callable := BaseWorkspace__init__ cwd wd in
  posixpath.isabs (working_dir self) = true
  ∧ get_tracked_subpaths self = []
  ∧ marker self = None.
Proof.
  intros Hc self. split; [by apply BaseWorkspace__init__isabs|].
  split; [|done]. unfold get_tracked_subpaths, self. cbn.
  by rewrite elements_empty.
Qed.

Lemma BaseWorkspace_constructed_witness :
  posixpath.isabs "/home/u" = true
  ∧ working_dir (BaseWorkspace__init__ (callable:=method) "/home/u" "proj/../ws/")
    = "/home/u/ws"
  ∧ posixpath.isabs
      (working_dir (BaseWorkspace__init__ (callable:=method) "/home/u" "proj/../ws/"))
    = true.
Proof.
  split; [reflexivity|]. split; [reflexivity|].
  apply (BaseWorkspace_constructed (callable:=method) "/home/u" "proj/../ws/").
  reflexivity.
Defined.

(** * Further properties of command-driven workspaces *)

Section Lifecycle.
Context {callable : Type} `{H : Host callable}.
Implicit Types (self : workspace callable) (e : env) (kw : kwargs callable).

Lemma fresh_attrs self0 mk (t : option (gmap string (pyobj callable))) :
  working_dir (fresh self0 mk t) = working_dir self0
  ∧ files (fresh self0 mk t) = files self0
  ∧ marker (fresh self0 mk t) = Some mk
  ∧ cmd_table (fresh self0 mk t) = default ∅ t.
Proof.
  unfold fresh. destruct t as [t|]; [case_bool_decide; subst|]; done.
Qed.

(** [initialize] on a workspace without marker directory and without a true
    ['init'] entry. *)
Lemma initialize_no_entry self e mk kw :
  marker self = Some mk →
  isdir (world e) (posixpath.join (working_dir self) mk) = false →
  truthy callable_bool (default PyNone (cmd_table self !! "init")) = false →
  initialize kw (self, e)
  = (if bool_decide (kw = ∅) then Returns PyNone
     else Raises (TypeError "dummy_action() got an unexpected keyword argument"),
     (self,
      add_log
        (add_log e DEBUG
           ("checking isdir: " +:+ posixpath.join (working_dir self) mk))
        INFO "init required but no init defined")).
Proof.
  intros Hm Hd Hf. unfold initialize, bind at 1.
  rewrite (check_marker_eq _ _ _ Hm), Hd. unfold bind.
  rewrite (get_cmd_dummy _ _ _ Hf). apply call_dummy.
Qed.

Lemma join_isabs (a b : string) :
  posixpath.isabs b = true → posixpath.join a b = b.
Proof. unfold posixpath.join, posixpath.isabs. by intros ->. Qed.

End Lifecycle.

(** X7.  Constructing a workspace over a directory whose marker directory
    exists returns an object with the normalized absolute working directory,
    nothing tracked, the marker and the table given; it calls nothing,
    leaves the world as it was and logs two debug records. *)
Theorem construct_initialized {callable} `{H : Host callable}
    (wd mk : string) (t : option (gmap string (pyobj callable))) (e : env) :
  let wdir := posixpath.abspath (getcwd (world e)) (posixpath.normpath wd) in
  isdir (world e) (posixpath.join wdir mk) = true →
  ∃ self,
    CmdWorkspace__init__ wd (Some mk) t e
    = (Returns self,
       add_log
         (add_log e DEBUG ("checking isdir: " +:+ posixpath.join wdir mk))
         DEBUG ("already initialized: " +:+ wdir))
    ∧ working_dir self = wdir
    ∧ files self = ∅
    ∧ marker self = Some mk
    ∧ cmd_table self = default ∅ t.
Proof.
  intros wdir Hd. rewrite CmdWorkspace__init__eq.
  set (self0 := fresh (BaseWorkspace__init__ (getcwd (world e)) wd) mk t).
  destruct (fresh_attrs (BaseWorkspace__init__ (getcwd (world e)) wd) mk t)
    as (Hw & Hf & Hm & Ht).
  fold self0 in Hw, Hf, Hm, Ht.
  change (working_dir (BaseWorkspace__init__ (getcwd (world e)) wd))
    with wdir in Hw.
  change (files (BaseWorkspace__init__ (callable:=callable)
                   (getcwd (world e)) wd)) with (∅ : gset string) in Hf.
  clearbody self0. exists self0.
  unfold initialize, bind at 1. rewrite (check_marker_eq _ _ _ Hm), Hw, Hd.
  unfold bind, get_self, log, ret. cbn [fst snd]. rewrite Hw. done.
Qed.

Lemma construct_initialized_witness :
  let e := stub_env PyNone {[ "/tmp/ws/.stub" ]} in
  isdir (world e) "/tmp/ws/.stub" = true
  ∧ ∃ self,
      CmdWorkspace__init__ "/tmp/x/../ws" (Some ".stub")
        (Some BaseCmd_cmd_table) e
      = (Returns self,
         add_log (add_log e DEBUG "checking isdir: /tmp/ws/.stub")
           DEBUG "already initialized: /tmp/ws")
      ∧ working_dir self = "/tmp/ws"
      ∧ files self = ∅
      ∧ marker self = Some ".stub"
      ∧ cmd_table self = BaseCmd_cmd_table.
Proof.
  intros e. split; [reflexivity|].
  exact (construct_initialized "/tmp/x/../ws" ".stub" (Some BaseCmd_cmd_table)
           e eq_refl).
Defined.

(** X8.  Constructing a workspace over a directory without marker directory,
    with a table that has no true ['init'] entry, does not raise: it calls
    nothing, leaves the world as it was, and logs the missing phase at info
    level. *)
Theorem construct_without_init_entry {callable} `{H : Host callable}
    (wd mk : string) (t : option (gmap string (pyobj callable))) (e : env) :
  let wdir := posixpath.abspath (getcwd (world e)) (posixpath.normpath wd) in
  isdir (world e) (posixpath.join wdir mk) = false →
  truthy callable_bool (default PyNone (default ∅ t !! "init")) = false →
  ∃ self,
    CmdWorkspace__init__ wd (Some mk) t e
    = (Returns self,
       add_log
         (add_log e DEBUG ("checking isdir: " +:+ posixpath.join wdir mk))
         INFO "init required but no init defined")
    ∧ working_dir self = wdir
    ∧ files self = ∅
    ∧ cmd_table self = default ∅ t.
Proof.
  intros wdir Hd Hfalse. rewrite CmdWorkspace__init__eq.
  set (self0 := fresh (BaseWorkspace__init__ (getcwd (world e)) wd) mk t).
  destruct (fresh_attrs (BaseWorkspace__init__ (getcwd (world e)) wd) mk t)
    as (Hw & Hf & Hm & Ht).
  fold self0 in Hw, Hf, Hm, Ht.
  change (working_dir (BaseWorkspace__init__ (getcwd (world e)) wd))
    with wdir in Hw.
  change (files (BaseWorkspace__init__ (callable:=callable)
                   (getcwd (world e)) wd)) with (∅ : gset string) in Hf.
  clearbody self0. exists self0.
  rewrite (initialize_no_entry self0 e mk ∅ Hm).
  - rewrite Hw. by rewrite bool_decide_eq_true_2.
  - by rewrite Hw.
  - by rewrite Ht.
Qed.

Lemma construct_without_init_entry_witness :
  let e := stub_env PyNone ∅ in
  isdir (world e) "/tmp/ws/.stub" = false
  ∧ ∃ self,
      CmdWorkspace__init__ "/tmp/ws" (Some ".stub")
        (Some {[ "init" := PyNone; "save" := PyCallable save_method ]}) e
      = (Returns self,
         add_log (add_log e DEBUG "checking isdir: /tmp/ws/.stub")
           INFO "init required but no init defined")
      ∧ working_dir self = "/tmp/ws"
      ∧ files self = ∅
      ∧ cmd_table self = {[ "init" := PyNone; "save" := PyCallable save_method ]}.
Proof.
  intros e. split; [reflexivity|].
  exact (construct_without_init_entry "/tmp/ws" ".stub"
           (Some {[ "init" := PyNone; "save" := PyCallable save_method ]})
           e eq_refl eq_refl).
Defined.

(** X9.  [initialize] called with at least one keyword, on a workspace
    without marker directory and without a true ['init'] entry, raises the
    [TypeError] of [dummy_action]; the workspace is unchanged and no table
    entry is called. *)
Theorem initialize_keywords_without_entry {callable} `{H : Host callable}
    (self : workspace callable) (e : env) (mk : string) (kw : kwargs callable) :
  marker self = Some mk →
  isdir (world e) (posixpath.join (working_dir self) mk) = false →
  truthy callable_bool (default PyNone (cmd_table self !! "init")) = false →
  kw ≠ ∅ →
  let r := initialize kw (self, e) in
  fst r = Raises (TypeError "dummy_action() got an unexpected keyword argument")
  ∧ fst (snd r) = self
  ∧ calls (snd (snd r)) = calls e
  ∧ world (snd (snd r)) = world e.
Proof.
  intros Hm Hd Hf Hkw r. unfold r.
  rewrite (initialize_no_entry self e mk kw Hm Hd Hf).
  by rewrite bool_decide_eq_false_2.
Qed.

Lemma initialize_keywords_without_entry_witness :
  let self : workspace method := set_marker ws_tmp (Some ".stub") in
  let e := stub_env PyNone ∅ in
  marker self = Some ".stub"
  ∧ fst (initialize {[ "force" := PyBool true ]} (self, e))
    = Raises (TypeError "dummy_action() got an unexpected keyword argument").
Proof.
  intros self e. split; [reflexivity|].
  apply (initialize_keywords_without_entry self e ".stub"
           {[ "force" := PyBool true ]}); [reflexivity..|].
  intros Hk. by apply (f_equal (λ m : kwargs method, m !! "force")) in Hk.
Defined.



(** X11.  An absolute marker is looked for where it points, not under the
    working directory: [check_marker] then tests the marker path itself. *)
Theorem check_marker_absolute {callable} `{H : Host callable}
    (self : workspace callable) (e : env) (mk : string) :
  marker self = Some mk →
  posixpath.isabs mk = true →
  fst (check_marker (self, e)) = Returns (isdir (world e) mk)
  ∧ fst (snd (check_marker (self, e))) = self
  ∧ world (snd (snd (check_marker (self, e)))) = world e.
Proof.
  intros Hm Ha. rewrite (check_marker_eq _ _ _ Hm), (join_isabs _ _ Ha). done.
Qed.

Lemma check_marker_absolute_witness :
  let self : workspace method := set_marker ws_tmp (Some "/srv/repo/.stub") in
  marker self = Some "/srv/repo/.stub"
  ∧ fst (check_marker (self, stub_env PyNone {[ "/srv/repo/.stub" ]}))
    = Returns true.
Proof.
  intros self. split; [reflexivity|].
  exact (proj1 (check_marker_absolute self
                  (stub_env PyNone {[ "/srv/repo/.stub" ]}) "/srv/repo/.stub"
                  eq_refl eq_refl)).
Defined.

(** * Further properties of the protocol *)

Section ProtocolFailures.
Context {callable B : Type} `{P : DvcsCmd callable B}.
Implicit Types (s : dstate callable B) (tr : list (prim_call callable))
  (kw : kwargs callable).

(** The loop over the tracked paths in general: it stops at the first [add]
    that raises. *)
Lemma for_each_add_prefix paths s tr :
  ∃ r s1 made,
    for_each paths (λ path, perform (Add path)) (s, tr) = (r, (s1, tr ++ made))
    ∧ made `prefix_of` (Add <$> paths)
    ∧ (r = Returns tt → made = Add <$> paths)
    ∧ (r ≠ Returns tt → made ≠ []).
Proof.
  revert s tr. induction paths as [|path paths IH]; intros s tr.
  - exists (Returns tt), s, []. simpl. rewrite app_nil_r. done.
  - simpl. unfold dbind. rewrite perform_eq. cbn [run_prim].
    destruct (fst (add path s)) as [[]|x] eqn:Hadd.
    + destruct (IH (snd (add path s)) (tr ++ [Add path]))
        as (r & s1 & made & -> & Hpre & Hall & Hne).
      exists r, s1, (Add path :: made). rewrite <- app_assoc.
      split; [done|]. split; [by apply prefix_cons|].
      split; [intros Hr; by rewrite (Hall Hr)|done].
    + exists (Raises x), (snd (add path s)), [Add path].
      split; [done|]. split; [|done].
      apply prefix_cons, prefix_nil.
Qed.

End ProtocolFailures.

(** X12.  Whatever the primitives do, [save] makes at least one primitive
    call, and the calls it makes are an initial part of: [add] for each path
    tracked when [save] was entered, in sorted order, then [commit], then
    [push].  It never calls [clone] or [init_new], never commits before all
    paths are added and never pushes before the commit.  When [save]
    returns, the calls are that whole sequence. *)
Theorem save_calls_in_order {callable B : Type} `{P : DvcsCmd callable B}
    (kw : kwargs callable) (s : dstate callable B)
    (tr : list (prim_call callable)) :
  let expected := (Add <$> get_tracked_subpaths (d_workspace s))
                  ++ [Commit (default (PyStr "") (kw !! "message")); Push] in
  ∃ made,
    snd (snd (BaseDvcsCmd_save kw (s, tr))) = tr ++ made
    ∧ made `prefix_of` expected
    ∧ made ≠ []
    ∧ (fst (BaseDvcsCmd_save kw (s, tr)) = Returns tt → made = expected).
Proof.
  intros expected. unfold expected, BaseDvcsCmd_save. cbn [fst].
  set (paths := get_tracked_subpaths (d_workspace s)).
  set (msg := default (PyStr "") (kw !! "message")).
  destruct (for_each_add_prefix paths s tr)
    as (r & s1 & made & Hloop & Hpre & Hall & Hne).
  unfold dbind. rewrite Hloop. destruct r as [[]|x].
  - rewrite (Hall eq_refl). rewrite perform_eq.
    destruct (fst (run_prim (Commit msg) s1)) as [[]|x].
    + rewrite perform_eq. cbn [fst snd].
      exists ((Add <$> paths) ++ [Commit msg; Push]).
      rewrite <- !app_assoc. split; [done|]. split; [done|].
      split; [by destruct (Add <$> paths)|done].
    + cbn [fst snd]. exists ((Add <$> paths) ++ [Commit msg]).
      rewrite <- !app_assoc. split; [done|]. split.
      * exists [Push]. by rewrite <- app_assoc.
      * split; [by destruct (Add <$> paths)|done].
  - cbn [fst snd]. exists made. split; [done|]. split.
    + by apply prefix_app_r.
    + split; [by apply Hne|done].
Qed.

(** X13.  When no [add] raises and [commit] does, [save] raises the
    exception of [commit] and [push] is not called: the calls end with the
    [commit]. *)
Theorem save_commit_failure_no_push {callable B : Type} `{P : DvcsCmd callable B}
    (kw : kwargs callable) (s : dstate callable B)
    (tr : list (prim_call callable)) (x : exn) :
  (∀ path s', fst (add path s') = Returns tt) →
  (∀ s', fst (commit (default (PyStr "") (kw !! "message")) s') = Raises x) →
  fst (BaseDvcsCmd_save kw (s, tr)) = Raises x
  ∧ snd (snd (BaseDvcsCmd_save kw (s, tr)))
    = tr ++ (Add <$> get_tracked_subpaths (d_workspace s))
         ++ [Commit (default (PyStr "") (kw !! "message"))].
Proof.
  intros Hadd Hcommit. destruct (save_after_adds kw s tr Hadd) as [s1 ->].
  unfold dbind. rewrite perform_eq. cbn [run_prim]. rewrite Hcommit.
  cbn [fst snd]. by rewrite <- app_assoc.
Qed.

Lemma save_commit_failure_no_push_witness :
  let r := BaseDvcsCmd_save (P:=nothing_to_commit_cmd)
             {[ "message" := PyStr "m" ]} (stub_state, []) in
  fst r = Raises (OtherError "nothing to commit")
  ∧ snd (snd r) = [Add "a"; Add "a/c"; Add "b"; Commit (PyStr "m")].
Proof.
  intros r.
  destruct (save_commit_failure_no_push (P:=nothing_to_commit_cmd)
              {[ "message" := PyStr "m" ]} stub_state []
              (OtherError "nothing to commit")) as [Hr Htr].
  - intros ? ?; reflexivity.
  - intros ?; reflexivity.
  - split; [exact Hr|]. unfold r. rewrite Htr. vm_compute. reflexivity.
Defined.

(** X14.  When the [add] of the first tracked path raises, [save] raises
    that exception after this one call: no other path is added, nothing is
    committed or pushed. *)
Theorem save_first_add_failure {callable B : Type} `{P : DvcsCmd callable B}
    (kw : kwargs callable) (s : dstate callable B)
    (tr : list (prim_call callable)) (path : string) (rest : list string)
    (x : exn) :
  get_tracked_subpaths (d_workspace s) = path :: rest →
  fst (add path s) = Raises x →
  BaseDvcsCmd_save kw (s, tr) = (Raises x, (snd (add path s), tr ++ [Add path])).
Proof.
  intros Hpaths Hadd. unfold BaseDvcsCmd_save. cbn [fst]. rewrite Hpaths.
  cbn [for_each]. unfold dbind. rewrite perform_eq. cbn [run_prim].
  by rewrite Hadd.
Qed.

Lemma save_first_add_failure_witness :
  get_tracked_subpaths (d_workspace stub_state) = ["a"; "a/c"; "b"]
  ∧ BaseDvcsCmd_save (P:=BaseDvcsCmd_abstract method stub_fs)
      {[ "message" := PyStr "m" ]} (stub_state, [])
    = (Raises NotImplementedError, (stub_state, [Add "a"])).
Proof.
  assert (get_tracked_subpaths (d_workspace stub_state) = ["a"; "a/c"; "b"])
    as Hpaths by (vm_compute; reflexivity).
  split; [exact Hpaths|].
  exact (save_first_add_failure (P:=BaseDvcsCmd_abstract method stub_fs)
           {[ "message" := PyStr "m" ]} stub_state [] "a" ["a/c"; "b"]
           NotImplementedError Hpaths eq_refl).
Defined.

(** X15.  On [BaseDvcsCmd] itself, whose primitives are not implemented,
    [init] and [save] always raise [NotImplementedError] after exactly one
    primitive call, and leave the command and the workspace as they were. *)
Theorem abstract_cmd_raises {callable B : Type} (kw : kwargs callable)
    (s : dstate callable B) (tr : list (prim_call callable)) :
  let init := BaseDvcsCmd_init (P:=BaseDvcsCmd_abstract callable B) kw (s, tr) in
  let save := BaseDvcsCmd_save (P:=BaseDvcsCmd_abstract callable B) kw (s, tr) in
  fst init = Raises NotImplementedError
  ∧ fst (snd init) = s
  ∧ length (snd (snd init)) = S (length tr)
  ∧ fst save = Raises NotImplementedError
  ∧ fst (snd save) = s
  ∧ length (snd (snd save)) = S (length tr).
Proof.
  intros init save. unfold init, save, BaseDvcsCmd_init, BaseDvcsCmd_save.
  cbn [fst].
  split; [by destruct (truthy _ (remote s))|].
  split; [by destruct (truthy _ (remote s))|].
  split.
  { destruct (truthy _ (remote s)); cbn; rewrite length_app; cbn; lia. }
  destruct (get_tracked_subpaths (d_workspace s)) as [|path rest];
    cbn; rewrite length_app; cbn; repeat split; lia.
Qed.

(** * A workspace driven by a command object *)

Section Driven.
Context {B : Type} `{P : DvcsCmd method B} `{F : FileSystem B}.
Implicit Types (self : workspace method) (kw : kwargs method).

Lemma cmd_table_init : BaseCmd_cmd_table !! "init" = Some (PyCallable init_method).
Proof. reflexivity. Qed.

Lemma cmd_table_save : BaseCmd_cmd_table !! "save" = Some (PyCallable save_method).
Proof. reflexivity. Qed.

(** Calling a table entry of the command runs the method on the command,
    the workspace and the backend, and records the call. *)
Lemma call_method (m : method) self (e : @env method cmd_host) kw :
  call_obj (PyCallable m) kw (self, e)
  = let r := invoke_method m kw (self, world e) in
    (fst r, (fst (snd r),
             {| world := snd (snd r); logs := logs e;
                calls := calls e ++ [(m, kw)] |})).
Proof.
  cbn [call_obj invoke cmd_host].
  by destruct (invoke_method m kw (self, world e)) as [o [self' w']].
Qed.

End Driven.

(** X16.  A workspace whose table is the [cmd_table] of a command, over a
    backend whose primitives return, and keywords [kw] that name neither
    [self] nor [workspace]: [save] returns [None], and the command has called
    [add] for each tracked path in sorted order, then [commit] with the
    [message] keyword (the empty string without it), then [push]. *)
Theorem workspace_save_through_cmd {B : Type} `{P : DvcsCmd method B}
    `{F : FileSystem B} (self : workspace method)
    (e : @env method cmd_host) (kw : kwargs method) :
  cmd_table self = BaseCmd_cmd_table →
  kw !! "self" = None →
  kw !! "workspace" = None →
  (∀ c s', fst (run_prim c s') = Returns tt) →
  let r := CmdWorkspace_save kw (self, e) in
  fst r = Returns PyNone
  ∧ cw_trace (world (snd (snd r)))
    = cw_trace (world e) ++ (Add <$> get_tracked_subpaths self)
        ++ [Commit (default (PyStr "") (kw !! "message")); Push]
  ∧ calls (snd (snd r)) = calls e ++ [(save_method, kw)]
  ∧ logs (snd (snd r)) = logs e.
Proof.
  intros Ht Hself Hws Hok r. unfold r, CmdWorkspace_save, bind.
  rewrite (get_cmd_bound self e "save" (PyCallable save_method));
    [|by rewrite Ht|done].
  rewrite call_method. unfold invoke_method, binds. rewrite Hself, Hws.
  cbn [negb].
  destruct (save_calls kw
              {| remote := cw_remote (world e); d_workspace := self;
                 backend := cw_backend (world e) |} (cw_trace (world e)) Hok)
    as [s' ->].
  done.
Qed.

Lemma workspace_save_through_cmd_witness :
  let self := set_cmd_table (d_workspace stub_state) BaseCmd_cmd_table in
  let r := CmdWorkspace_save {[ "message" := PyStr "m" ]}
             (self, stub_env PyNone ∅) in
  cmd_table self = BaseCmd_cmd_table
  ∧ fst r = Returns PyNone
  ∧ cw_trace (world (snd (snd r)))
    = [Add "a"; Add "a/c"; Add "b"; Commit (PyStr "m"); Push].
Proof.
  intros self r. split; [reflexivity|].
  destruct (workspace_save_through_cmd self (stub_env PyNone ∅)
              {[ "message" := PyStr "m" ]} eq_refl) as (Hr & Htr & _).
  { vm_compute; reflexivity. }
  { vm_compute; reflexivity. }
  { intros [] ?; reflexivity. }
  split; [exact Hr|]. unfold r. rewrite Htr. vm_compute. reflexivity.
Defined.

(** X17.  Constructing a workspace with the [cmd_table] of a command, over a
    directory without marker directory, makes the command call exactly one
    primitive: [clone] when its [remote] is true, [init_new] otherwise. *)
Theorem construct_through_cmd {B : Type} `{P : DvcsCmd method B}
    `{F : FileSystem B} (wd mk : string) (e : @env method cmd_host) :
  isdir (world e)
    (posixpath.join
       (posixpath.abspath (getcwd (world e)) (posixpath.normpath wd)) mk)
  = false →
  let r := CmdWorkspace__init__ wd (Some mk) (Some BaseCmd_cmd_table) e in
  cw_trace (world (snd r))
  = cw_trace (world e)
      ++ [if truthy (λ _, true) (cw_remote (world e)) then Clone else InitNew]
  ∧ calls (snd r) = calls e ++ [(init_method, ∅)].
Proof.
  intros Hd r. unfold r. rewrite CmdWorkspace__init__eq.
  set (self0 := fresh (BaseWorkspace__init__ (getcwd (world e)) wd) mk
                  (Some BaseCmd_cmd_table)).
  assert (marker self0 = Some mk) as Hm by apply fresh_marker.
  assert (working_dir self0
          = posixpath.abspath (getcwd (world e)) (posixpath.normpath wd)) as Hw.
  { unfold self0. by rewrite fresh_working_dir. }
  assert (cmd_table self0 = BaseCmd_cmd_table) as Ht.
  { unfold self0. by rewrite (fresh_cmd_table _ _ _ _ _ cmd_table_init). }
  clearbody self0.
  assert (initialize ∅ (self0, e)
          = call_obj (PyCallable init_method) ∅
              (self0,
               add_log e DEBUG
                 ("checking isdir: " +:+ posixpath.join (working_dir self0) mk)))
    as Hinit.
  { unfold initialize, bind at 1.
    rewrite (check_marker_eq _ _ _ Hm), Hw, Hd. unfold bind.
    rewrite (get_cmd_bound self0 _ "init" (PyCallable init_method));
      [done|by rewrite Ht|done]. }
  rewrite Hinit, call_method. unfold invoke_method, binds.
  rewrite !lookup_empty. cbn [negb]. unfold BaseDvcsCmd_init.
  cbn [world add_log fst remote].
  destruct (truthy _ (cw_remote (world e))); rewrite perform_eq;
    cbn [fst snd];
    match goal with
    | |- context [fst (run_prim ?c ?s)] =>
        destruct (fst (run_prim c s)); split; reflexivity
    end.
Qed.

Lemma construct_through_cmd_witness :
  let e := stub_env (PyStr "https://example.org/repo") ∅ in
  let r := CmdWorkspace__init__ "/tmp/ws" (Some ".stub")
             (Some BaseCmd_cmd_table) e in
  isdir (world e) "/tmp/ws/.stub" = false
  ∧ cw_trace (world (snd r)) = [Clone]
  ∧ isdir (world (snd r)) "/tmp/ws/.stub" = true.
Proof.
  intros e r. split; [reflexivity|]. split.
  - exact (proj1 (construct_through_cmd "/tmp/ws" ".stub" e eq_refl)).
  - vm_compute. reflexivity.
Defined.

(** A keyword named [workspace] or [self] never reaches the command: the
    call of the table entry raises the [TypeError] of a second value for
    that argument, and no primitive is called. *)
Lemma workspace_save_keyword_clash {B : Type} `{P : DvcsCmd method B}
    `{F : FileSystem B} (self : workspace method)
    (e : @env method cmd_host) (kw : kwargs method) :
  cmd_table self = BaseCmd_cmd_table →
  binds kw = false →
  let r := CmdWorkspace_save kw (self, e) in
  fst r = Raises (TypeError "got multiple values for argument")
  ∧ fst (snd r) = self
  ∧ world (snd (snd r)) = world e.
Proof.
  intros Ht Hb r. unfold r, CmdWorkspace_save, bind.
  rewrite (get_cmd_bound self e "save" (PyCallable save_method));
    [|by rewrite Ht|done].
  rewrite call_method. unfold invoke_method. rewrite Hb. done.
Qed.
